(** * sample_indexer_datasource_skillset.py: a shallow embedding

    The script assembles the request payloads of an Azure AI Search
    indexing pipeline (datasource, skillset, indexer; an index definition
    that the main flow leaves commented out) and sends them through the
    SDK's client objects.

    The embedding has three layers:
    - the SDK model classes, as records holding the keyword arguments the
      script passes to their constructors;
    - the module-level environment lookups, as a fallible function of
      [os.environ];
    - the functions of the script, in a small monad that threads the
      remote service, the log of the client calls issued, the console
      output and Python's exceptions. *)

From Stdlib Require Import ZArith.
From stdpp Require Import gmap strings list fin_maps.

Local Open Scope string_scope.

(** ** Python values

    [fields=[...],] on line 101-113 of the script ends in a comma, so the
    distinction between a Python list and a Python tuple matters. *)
#[local] Unset Elimination Schemes.
Inductive pyseq (A : Type) : Type :=
| PyObj (a : A)
| PyList (items : list (pyseq A))
| PyTuple (items : list (pyseq A)).
#[local] Set Elimination Schemes.
Arguments PyObj {A} a.
Arguments PyList {A} items.
Arguments PyTuple {A} items.

(** ** SDK model classes (azure.search.documents.indexes.models) *)

Inductive SearchFieldDataType : Type :=
| String_
| Single
| Collection (t : SearchFieldDataType).

(** The three field constructors the script calls, each with the keyword
    arguments the SDK accepts among those the script uses; [None] is a
    keyword argument left out of the call. *)
Inductive field_definition : Type :=
| SearchableField (name : string) (key : option bool)
    (analyzer_name : option string) (sortable : option bool)
| SimpleField (name : string) (type : SearchFieldDataType)
    (filterable : option bool)
| SearchField (name : string) (type : SearchFieldDataType)
    (vector_search_dimensions : option Z)
    (vector_search_profile_name : option string)
    (stored hidden : option bool).

Module CorsOptions.
Record t := mk { allowed_origins : list string; max_age_in_seconds : Z }.
End CorsOptions.

Module SearchIndex.
Record t := mk {
  name : string;
  fields : pyseq field_definition;
  cors_options : CorsOptions.t }.
End SearchIndex.

Module SearchIndexerDataContainer.
Record t := mk { name : string }.
End SearchIndexerDataContainer.

Module SearchIndexerDataSourceConnection.
Record t := mk {
  name : string;
  type : string;
  connection_string : string;
  container : SearchIndexerDataContainer.t }.
End SearchIndexerDataSourceConnection.

Module InputFieldMappingEntry.
Record t := mk { name : string; source : string }.
End InputFieldMappingEntry.

Module OutputFieldMappingEntry.
Record t := mk { name : string; target_name : string }.
End OutputFieldMappingEntry.

Module SplitSkill.
Record t := mk {
  text_split_mode : string;
  context : string;
  maximum_page_length : Z;
  page_overlap_length : Z;
  inputs : list InputFieldMappingEntry.t;
  outputs : list OutputFieldMappingEntry.t }.
End SplitSkill.

Module AzureOpenAIEmbeddingSkill.
Record t := mk {
  context : string;
  resource_uri : string;
  api_key : string;
  deployment_id : string;
  model_name : string;
  dimensions : Z;
  inputs : list InputFieldMappingEntry.t;
  outputs : list OutputFieldMappingEntry.t }.
End AzureOpenAIEmbeddingSkill.

(** The [skills] list of a skillset is heterogeneous. *)
Inductive skill : Type :=
| Split (s : SplitSkill.t)
| Embedding (e : AzureOpenAIEmbeddingSkill.t).

Inductive IndexProjectionMode : Type :=
| SKIP_INDEXING_PARENT_DOCUMENTS
| INCLUDE_INDEXING_PARENT_DOCUMENTS.

Module SearchIndexerIndexProjectionSelector.
Record t := mk {
  target_index_name : string;
  parent_key_field_name : string;
  source_context : string;
  mappings : list InputFieldMappingEntry.t }.
End SearchIndexerIndexProjectionSelector.

Module SearchIndexerIndexProjectionsParameters.
Record t := mk { projection_mode : IndexProjectionMode }.
End SearchIndexerIndexProjectionsParameters.

Module SearchIndexerIndexProjections.
Record t := mk {
  selectors : list SearchIndexerIndexProjectionSelector.t;
  parameters : SearchIndexerIndexProjectionsParameters.t }.
End SearchIndexerIndexProjections.

Module SearchIndexerSkillset.
Record t := mk {
  name : string;
  skills : list skill;
  index_projections : SearchIndexerIndexProjections.t }.
End SearchIndexerSkillset.

Module FieldMapping.
Record t := mk { source_field_name : string; target_field_name : string }.
End FieldMapping.

Module SearchIndexer.
Record t := mk {
  name : string;
  data_source_name : string;
  target_index_name : string;
  skillset_name : string;
  field_mappings : list FieldMapping.t }.
End SearchIndexer.

(** ** Clients, requests and the remote service *)

Module AzureKeyCredential.
Record t := mk { key : string }.
End AzureKeyCredential.

(** The two client classes; both are built from the service endpoint and
    a key credential.  Building a client sends nothing, but the SDK may
    refuse to build it (see [client_refused] below). *)
Inductive client : Type :=
| SearchIndexClient (endpoint : string) (credential : AzureKeyCredential.t)
| SearchIndexerClient (endpoint : string) (credential : AzureKeyCredential.t).

(** What a client method can fail with instead of returning a
    descriptor: an error of the service or, with [ClientSide], an
    exception the SDK raises on its own side of the call before a request
    goes out (an [AttributeError] on a payload it cannot pack, for one). *)
Inductive remote_error : Type :=
| AuthenticationFailure
| NamingCollision
| MalformedRequest
| OtherFailure (status : Z)
| ClientSide (exception_class : string).

(** A client method together with its payload.  The first six are the
    methods the script calls; the [delete_*] methods are those of the same
    clients by which created resources could be taken back. *)
Inductive request : Type :=
| create_index (index : SearchIndex.t)
| create_data_source_connection (ds : SearchIndexerDataSourceConnection.t)
| create_skillset (skillset : SearchIndexerSkillset.t)
| create_indexer (indexer : SearchIndexer.t)
| get_indexer (name : string)
| run_indexer (name : string)
| delete_index (name : string)
| delete_data_source_connection (name : string)
| delete_skillset (name : string)
| delete_indexer (name : string).

(** One entry of the log of client calls: the client the method was
    called on, the method with its argument, and the error the call raised
    if it did not return. *)
Record client_call := Call {
  via : client;
  op : request;
  raised : option remote_error }.

(** The SDK and the remote service behind it are opaque: a state of an
    unknown type and, for every client method the script uses, a
    deterministic answer that either returns the resource descriptor or
    fails.  The constructors of the client classes are part of the SDK
    too: [client_refused c] is [None] when the constructor returns the
    client [c], and the message of the [ValueError] it raises when it
    does not (the SDK refuses an endpoint that is not https). *)
Class SearchService (service : Type) := {
  client_refused : client -> option string;
  remote_create_index :
    client -> SearchIndex.t -> service ->
    (remote_error + SearchIndex.t) * service;
  remote_create_data_source_connection :
    client -> SearchIndexerDataSourceConnection.t -> service ->
    (remote_error + SearchIndexerDataSourceConnection.t) * service;
  remote_create_skillset :
    client -> SearchIndexerSkillset.t -> service ->
    (remote_error + SearchIndexerSkillset.t) * service;
  remote_create_indexer :
    client -> SearchIndexer.t -> service ->
    (remote_error + SearchIndexer.t) * service;
  remote_get_indexer :
    client -> string -> service -> (remote_error + SearchIndexer.t) * service;
  remote_run_indexer :
    client -> string -> service -> (remote_error + unit) * service }.

(** ** Exceptions, console output and the run monad *)

(** [KeyError] comes from [os.environ], [ValueError] from the constructor
    of a client class, and [HttpResponseError e] stands for whatever a
    client method raised, [e] telling what it failed with. *)
Inductive exception : Type :=
| KeyError (key : string)
| HttpResponseError (e : remote_error)
| ValueError (message : string).

Inductive output : Type :=
| Text (s : string)
| Repr (indexer : SearchIndexer.t).

Record world (service : Type) := World {
  remote : service;
  calls : list client_call;
  console : list output }.
Arguments World {service} remote calls console.
Arguments remote {service} w.
Arguments calls {service} w.
Arguments console {service} w.

(** A computation either returns or raises, and in both cases leaves the
    world as the effects performed so far have made it. *)
Definition M (service A : Type) : Type :=
  world service -> (exception + A) * world service.

Definition ret {service A} (a : A) : M service A := fun w => (inr a, w).

Definition raise {service A} (e : exception) : M service A :=
  fun w => (inl e, w).

Definition bind {service A B} (c : M service A) (k : A -> M service B)
  : M service B :=
  fun w =>
    match c w with
    | (inr a, w') => k a w'
    | (inl e, w') => (inl e, w')
    end.

Notation "'let!' x ':=' c 'in' k" := (bind c (fun x => k))
  (at level 10, x name, c at level 100, k at level 200).
Notation "'run!' c 'in' k" := (bind c (fun _ => k))
  (at level 10, c at level 100, k at level 200).

Definition print {service} (o : output) : M service unit :=
  fun w => (inr tt, World (remote w) (calls w) (console w ++ [o])).

(** A blocking client call: the service answers, the call is logged with
    its outcome, and a failure is raised as an exception. *)
Definition invoke {service A} (c : client) (r : request)
    (answer : service -> (remote_error + A) * service) : M service A :=
  fun w =>
    match answer (remote w) with
    | (inr a, s') => (inr a, World s' (calls w ++ [Call c r None]) (console w))
    | (inl e, s') =>
        (inl (HttpResponseError e),
         World s' (calls w ++ [Call c r (Some e)]) (console w))
    end.

(** ** The script *)

(** The module-level names bound on lines 88-95. *)
Record globals := Globals {
  service_endpoint : string;
  key : string;
  connection_string : string;
  AZURE_OPENAI_EMBEDDING_ENDPOINT : string;
  AZURE_OPENAI_EMBEDDING_DEPLOYMENT : string;
  AZURE_OPENAI_EMBEDDING_MODEL : string;
  AZURE_OPENAI_EMBEDDING_CREDENTIAL : string }.

(** The local [index] of [_create_index] (lines 98-117).  The assignment
    to [fields] ends in a comma: its value is a one-element tuple holding
    the list of field definitions. *)
Definition index : SearchIndex.t :=
  let name := "hotel-index" in
  let fields :=
    PyTuple [
      PyList [
        PyObj (SearchableField "chunk_id" (Some true) (Some "keyword")
                 (Some true));
        PyObj (SimpleField "parent_id" String_ (Some true));
        PyObj (SearchableField "title" None None None);
        PyObj (SearchableField "chunk" None None None);
        PyObj (SearchField "text_vector" (Collection Single) (Some 1536%Z)
                 (Some "vp") (Some true) (Some false)) ] ] in
  let cors_options := CorsOptions.mk ["*"] 60 in
  SearchIndex.mk name fields cors_options.

(** The local [data_source_connection] of [_create_datasource]. *)
Definition data_source_connection (g : globals)
  : SearchIndexerDataSourceConnection.t :=
  let container := SearchIndexerDataContainer.mk "documentation" in
  {| SearchIndexerDataSourceConnection.name := "openairagaudio";
     SearchIndexerDataSourceConnection.type := "azureblob";
     SearchIndexerDataSourceConnection.connection_string :=
       connection_string g;
     SearchIndexerDataSourceConnection.container := container |}.

(** The local [skillset] of [_create_skillset] (lines 137-173). *)
Definition skillset (g : globals) : SearchIndexerSkillset.t :=
  {| SearchIndexerSkillset.name := "testtskillset";
     SearchIndexerSkillset.skills := [
       Split
         {| SplitSkill.text_split_mode := "pages";
            SplitSkill.context := "/document";
            SplitSkill.maximum_page_length := 2000;
            SplitSkill.page_overlap_length := 500;
            SplitSkill.inputs :=
              [InputFieldMappingEntry.mk "text" "/document/content"];
            SplitSkill.outputs :=
              [OutputFieldMappingEntry.mk "textItems" "pages"] |};
       Embedding
         {| AzureOpenAIEmbeddingSkill.context := "/document/pages/*";
            AzureOpenAIEmbeddingSkill.resource_uri :=
              AZURE_OPENAI_EMBEDDING_ENDPOINT g;
            AzureOpenAIEmbeddingSkill.api_key :=
              AZURE_OPENAI_EMBEDDING_CREDENTIAL g;
            AzureOpenAIEmbeddingSkill.deployment_id :=
              AZURE_OPENAI_EMBEDDING_ENDPOINT g;
            AzureOpenAIEmbeddingSkill.model_name :=
              AZURE_OPENAI_EMBEDDING_MODEL g;
            AzureOpenAIEmbeddingSkill.dimensions := 1536;
            AzureOpenAIEmbeddingSkill.inputs :=
              [InputFieldMappingEntry.mk "text" "/document/pages/*"];
            AzureOpenAIEmbeddingSkill.outputs :=
              [OutputFieldMappingEntry.mk "embedding" "text_vector"] |} ];
     SearchIndexerSkillset.index_projections :=
       {| SearchIndexerIndexProjections.selectors := [
            {| SearchIndexerIndexProjectionSelector.target_index_name :=
                 "gptkbindex";
               SearchIndexerIndexProjectionSelector.parent_key_field_name :=
                 "parent_id";
               SearchIndexerIndexProjectionSelector.source_context :=
                 "/document/pages/*";
               SearchIndexerIndexProjectionSelector.mappings := [
                 InputFieldMappingEntry.mk "chunk" "/document/pages/*";
                 InputFieldMappingEntry.mk "text_vector"
                   "/document/pages/*/text_vector";
                 InputFieldMappingEntry.mk "title"
                   "/document/metadata_storage_name" ] |} ];
          SearchIndexerIndexProjections.parameters :=
            SearchIndexerIndexProjectionsParameters.mk
              SKIP_INDEXING_PARENT_DOCUMENTS |} |}.

(** The local [indexer] of [sample_indexer_workflow] (lines 193-200). *)
Definition indexer (ds_name skillset_name : string) : SearchIndexer.t :=
  {| SearchIndexer.name := "hotel-data-indexer";
     SearchIndexer.data_source_name := ds_name;
     SearchIndexer.target_index_name := "gptkbindex";
     SearchIndexer.skillset_name := skillset_name;
     SearchIndexer.field_mappings :=
       [FieldMapping.mk "metadata_storage_name" "title"] |}.

(** [os.environ[name]]: the value, or [KeyError] when the variable is
    not set. *)
Definition os_environ {service} (environ : gmap string string)
    (name : string) : M service string :=
  match environ !! name with
  | Some v => ret v
  | None => raise (KeyError name)
  end.

(** Lines 88-95.  [environ] is [os.environ] as these lookups see it, that
    is, once [load_dotenv()] on line 86 has returned. *)
Definition module_init {service} (environ : gmap string string)
  : M service globals :=
  let! service_endpoint := os_environ environ "AZURE_SEARCH_SERVICE_ENDPOINT" in
  let! key := os_environ environ "AZURE_SEARCH_API_KEY" in
  let! connection_string :=
    os_environ environ "AZURE_STORAGE_CONNECTION_STRING" in
  let! endpoint := os_environ environ "AZURE_OPENAI_ENDPOINT" in
  let! deployment := os_environ environ "AZURE_OPENAI_EMBEDDING_DEPLOYMENT" in
  let! model := os_environ environ "AZURE_OPENAI_EMBEDDING_MODEL" in
  let! credential := os_environ environ "AZURE_OPENAI_EMBEDDING_CREDENTIAL" in
  ret (Globals service_endpoint key connection_string
         endpoint deployment model credential).

Section Script.
Context {service : Type} `{SearchService service}.

(** Calling the constructor of a client class: the client, or the
    [ValueError] of the SDK; nothing is sent either way. *)
Definition new_client (c : client) : M service client :=
  match client_refused c with
  | Some message => raise (ValueError message)
  | None => ret c
  end.

(** The client methods: each one is a client call, answered by the SDK
    and the service behind it. *)
Definition call_create_index (c : client) (i : SearchIndex.t) :=
  invoke c (create_index i) (remote_create_index c i).
Definition call_create_data_source_connection (c : client)
    (d : SearchIndexerDataSourceConnection.t) :=
  invoke c (create_data_source_connection d)
    (remote_create_data_source_connection c d).
Definition call_create_skillset (c : client) (k : SearchIndexerSkillset.t) :=
  invoke c (create_skillset k) (remote_create_skillset c k).
Definition call_create_indexer (c : client) (i : SearchIndexer.t) :=
  invoke c (create_indexer i) (remote_create_indexer c i).
Definition call_get_indexer (c : client) (name : string) :=
  invoke c (get_indexer name) (remote_get_indexer c name).
Definition call_run_indexer (c : client) (name : string) :=
  invoke c (run_indexer name) (remote_run_indexer c name).

(** Lines 97-120: the index is built, then the client (line 118), then
    [create_index] is called. *)
Definition _create_index (g : globals) : M service SearchIndex.t :=
  let index := index in
  let! index_client :=
    new_client
      (SearchIndexClient (service_endpoint g) (AzureKeyCredential.mk (key g)))
  in
  let! result := call_create_index index_client index in
  ret result.

(** Lines 123-132: the client is built first (line 126). *)
Definition _create_datasource (g : globals)
  : M service SearchIndexerDataSourceConnection.t :=
  let! ds_client :=
    new_client
      (SearchIndexerClient (service_endpoint g) (AzureKeyCredential.mk (key g)))
  in
  let! data_source :=
    call_create_data_source_connection ds_client (data_source_connection g) in
  ret data_source.

(** Lines 135-175: the client is built first (line 136), before the
    skillset. *)
Definition _create_skillset (g : globals) : M service SearchIndexerSkillset.t :=
  let! client :=
    new_client
      (SearchIndexerClient (service_endpoint g) (AzureKeyCredential.mk (key g)))
  in
  let! result := call_create_skillset client (skillset g) in
  ret result.

(** Lines 178-210; the commented-out statements are not executed and so
    are not here. *)
Definition sample_indexer_workflow (g : globals) : M service unit :=
  let! created_skillset := _create_skillset g in
  let skillset_name := SearchIndexerSkillset.name created_skillset in
  run! print (Text "Skillset is created") in
  let! created_datasource := _create_datasource g in
  let ds_name := SearchIndexerDataSourceConnection.name created_datasource in
  run! print (Text "Data source is created") in
  let indexer := indexer ds_name skillset_name in
  let! indexer_client :=
    new_client
      (SearchIndexerClient (service_endpoint g) (AzureKeyCredential.mk (key g)))
  in
  run! call_create_indexer indexer_client indexer in
  let! result := call_get_indexer indexer_client "hotel-data-indexer" in
  run! print (Repr result) in
  run! call_run_indexer indexer_client (SearchIndexer.name result) in
  ret tt.

(** Running the file as a script: the module-level statements, then the
    [__main__] guard calls the workflow. *)
Definition script (environ : gmap string string) : M service unit :=
  let! g := module_init environ in
  sample_indexer_workflow g.

(** A run of the script against a service in state [s]: nothing has
    been called or printed yet. *)
Definition run (environ : gmap string string) (s : service)
  : (exception + unit) * world service :=
  script environ (World s [] []).

End Script.

(** ** Vocabulary of the properties *)

Definition start {service} (s : service) : world service := World s [] [].

Definition is_create_index (r : request) : bool :=
  match r with create_index _ => true | _ => false end.
Definition is_create_datasource (r : request) : bool :=
  match r with create_data_source_connection _ => true | _ => false end.
Definition is_create_skillset (r : request) : bool :=
  match r with create_skillset _ => true | _ => false end.
Definition is_create_indexer (r : request) : bool :=
  match r with create_indexer _ => true | _ => false end.
Definition is_run_indexer (r : request) : bool :=
  match r with run_indexer _ => true | _ => false end.
Definition is_delete (r : request) : bool :=
  match r with
  | delete_index _ | delete_data_source_connection _
  | delete_skillset _ | delete_indexer _ => true
  | _ => false
  end.

(** Every call of kind [Q] in the log comes after a call of kind [P]. *)
Definition issued_before (P Q : request -> bool) (log : list client_call)
  : Prop :=
  forall i c, log !! i = Some c -> Q (op c) = true ->
    exists j c', j < i /\ log !! j = Some c' /\ P (op c') = true.

(** Every call of kind [Q] in the log comes after a call of kind [P] that
    returned without raising. *)
Definition returned_before (P Q : request -> bool) (log : list client_call)
  : Prop :=
  forall i c, log !! i = Some c -> Q (op c) = true ->
    exists j c', j < i /\ log !! j = Some c' /\ P (op c') = true /\
                 raised c' = None.

(** The executable form of [returned_before]: scan the log, remembering
    whether a returned call of kind [P] has been seen. *)
Fixpoint scan_returned_before (P Q : request -> bool) (seen : bool)
    (log : list client_call) : bool :=
  match log with
  | [] => true
  | c :: rest =>
      (negb (Q (op c)) || seen) &&
      scan_returned_before P Q
        (seen || (P (op c) && bool_decide (raised c = None))) rest
  end.

(** How many calls of kind [P] the log holds. *)
Definition count_calls (P : request -> bool) (log : list client_call) : nat :=
  length (List.filter (fun c => P (op c)) log).

Definition embedding_skills (k : SearchIndexerSkillset.t)
  : list AzureOpenAIEmbeddingSkill.t :=
  omap (fun s => match s with Embedding e => Some e | Split _ => None end)
       (SearchIndexerSkillset.skills k).

(** The seven variables the module-level statements read, in the order
    they are read. *)
Definition required_variables : list string :=
  [ "AZURE_SEARCH_SERVICE_ENDPOINT"; "AZURE_SEARCH_API_KEY";
    "AZURE_STORAGE_CONNECTION_STRING"; "AZURE_OPENAI_ENDPOINT";
    "AZURE_OPENAI_EMBEDDING_DEPLOYMENT"; "AZURE_OPENAI_EMBEDDING_MODEL";
    "AZURE_OPENAI_EMBEDDING_CREDENTIAL" ].

(** The variables the globals were read from. *)
Definition read_from (environ : gmap string string) (g : globals) : Prop :=
  environ !! "AZURE_SEARCH_SERVICE_ENDPOINT" = Some (service_endpoint g) /\
  environ !! "AZURE_SEARCH_API_KEY" = Some (key g) /\
  environ !! "AZURE_STORAGE_CONNECTION_STRING" = Some (connection_string g) /\
  environ !! "AZURE_OPENAI_ENDPOINT"
    = Some (AZURE_OPENAI_EMBEDDING_ENDPOINT g) /\
  environ !! "AZURE_OPENAI_EMBEDDING_DEPLOYMENT"
    = Some (AZURE_OPENAI_EMBEDDING_DEPLOYMENT g) /\
  environ !! "AZURE_OPENAI_EMBEDDING_MODEL"
    = Some (AZURE_OPENAI_EMBEDDING_MODEL g) /\
  environ !! "AZURE_OPENAI_EMBEDDING_CREDENTIAL"
    = Some (AZURE_OPENAI_EMBEDDING_CREDENTIAL g).

(** The client every function of the script builds. *)
Definition indexer_client_of (g : globals) : client :=
  SearchIndexerClient (service_endpoint g) (AzureKeyCredential.mk (key g)).

Section Outcomes.
Context {service : Type} `{SearchService service}.

(** The seven ways a run of the workflow can go from an empty log: the
    client is refused, one for each remote call that can fail, and the run
    in which all five return.  [workflow_cases] below shows there is no
    other. *)
Inductive workflow_outcome (g : globals) (s : service)
  : (exception + unit) * world service -> Prop :=
| client_raises message :
    client_refused (indexer_client_of g) = Some message ->
    workflow_outcome g s (inl (ValueError message), World s [] [])
| skillset_raises e s1 :
    client_refused (indexer_client_of g) = None ->
    remote_create_skillset (indexer_client_of g) (skillset g) s
      = (inl e, s1) ->
    workflow_outcome g s
      (inl (HttpResponseError e),
       World s1
         [Call (indexer_client_of g) (create_skillset (skillset g)) (Some e)]
         [])
| datasource_raises k s1 e s2 :
    client_refused (indexer_client_of g) = None ->
    remote_create_skillset (indexer_client_of g) (skillset g) s
      = (inr k, s1) ->
    remote_create_data_source_connection (indexer_client_of g)
      (data_source_connection g) s1 = (inl e, s2) ->
    workflow_outcome g s
      (inl (HttpResponseError e),
       World s2
         [Call (indexer_client_of g) (create_skillset (skillset g)) None;
          Call (indexer_client_of g)
            (create_data_source_connection (data_source_connection g))
            (Some e)]
         [Text "Skillset is created"])
| indexer_raises k s1 d s2 e s3 :
    client_refused (indexer_client_of g) = None ->
    remote_create_skillset (indexer_client_of g) (skillset g) s
      = (inr k, s1) ->
    remote_create_data_source_connection (indexer_client_of g)
      (data_source_connection g) s1 = (inr d, s2) ->
    remote_create_indexer (indexer_client_of g)
      (indexer (SearchIndexerDataSourceConnection.name d)
               (SearchIndexerSkillset.name k)) s2 = (inl e, s3) ->
    workflow_outcome g s
      (inl (HttpResponseError e),
       World s3
         [Call (indexer_client_of g) (create_skillset (skillset g)) None;
          Call (indexer_client_of g)
            (create_data_source_connection (data_source_connection g)) None;
          Call (indexer_client_of g)
            (create_indexer
               (indexer (SearchIndexerDataSourceConnection.name d)
                        (SearchIndexerSkillset.name k)))
            (Some e)]
         [Text "Skillset is created"; Text "Data source is created"])
| get_raises k s1 d s2 i s3 e s4 :
    client_refused (indexer_client_of g) = None ->
    remote_create_skillset (indexer_client_of g) (skillset g) s
      = (inr k, s1) ->
    remote_create_data_source_connection (indexer_client_of g)
      (data_source_connection g) s1 = (inr d, s2) ->
    remote_create_indexer (indexer_client_of g)
      (indexer (SearchIndexerDataSourceConnection.name d)
               (SearchIndexerSkillset.name k)) s2 = (inr i, s3) ->
    remote_get_indexer (indexer_client_of g) "hotel-data-indexer" s3
      = (inl e, s4) ->
    workflow_outcome g s
      (inl (HttpResponseError e),
       World s4
         [Call (indexer_client_of g) (create_skillset (skillset g)) None;
          Call (indexer_client_of g)
            (create_data_source_connection (data_source_connection g)) None;
          Call (indexer_client_of g)
            (create_indexer
               (indexer (SearchIndexerDataSourceConnection.name d)
                        (SearchIndexerSkillset.name k)))
            None;
          Call (indexer_client_of g) (get_indexer "hotel-data-indexer")
            (Some e)]
         [Text "Skillset is created"; Text "Data source is created"])
| run_raises k s1 d s2 i s3 r s4 e s5 :
    client_refused (indexer_client_of g) = None ->
    remote_create_skillset (indexer_client_of g) (skillset g) s
      = (inr k, s1) ->
    remote_create_data_source_connection (indexer_client_of g)
      (data_source_connection g) s1 = (inr d, s2) ->
    remote_create_indexer (indexer_client_of g)
      (indexer (SearchIndexerDataSourceConnection.name d)
               (SearchIndexerSkillset.name k)) s2 = (inr i, s3) ->
    remote_get_indexer (indexer_client_of g) "hotel-data-indexer" s3
      = (inr r, s4) ->
    remote_run_indexer (indexer_client_of g) (SearchIndexer.name r) s4
      = (inl e, s5) ->
    workflow_outcome g s
      (inl (HttpResponseError e),
       World s5
         [Call (indexer_client_of g) (create_skillset (skillset g)) None;
          Call (indexer_client_of g)
            (create_data_source_connection (data_source_connection g)) None;
          Call (indexer_client_of g)
            (create_indexer
               (indexer (SearchIndexerDataSourceConnection.name d)
                        (SearchIndexerSkillset.name k)))
            None;
          Call (indexer_client_of g) (get_indexer "hotel-data-indexer") None;
          Call (indexer_client_of g) (run_indexer (SearchIndexer.name r))
            (Some e)]
         [Text "Skillset is created"; Text "Data source is created";
          Repr r])
| all_return k s1 d s2 i s3 r s4 s5 :
    client_refused (indexer_client_of g) = None ->
    remote_create_skillset (indexer_client_of g) (skillset g) s
      = (inr k, s1) ->
    remote_create_data_source_connection (indexer_client_of g)
      (data_source_connection g) s1 = (inr d, s2) ->
    remote_create_indexer (indexer_client_of g)
      (indexer (SearchIndexerDataSourceConnection.name d)
               (SearchIndexerSkillset.name k)) s2 = (inr i, s3) ->
    remote_get_indexer (indexer_client_of g) "hotel-data-indexer" s3
      = (inr r, s4) ->
    remote_run_indexer (indexer_client_of g) (SearchIndexer.name r) s4
      = (inr tt, s5) ->
    workflow_outcome g s
      (inr tt,
       World s5
         [Call (indexer_client_of g) (create_skillset (skillset g)) None;
          Call (indexer_client_of g)
            (create_data_source_connection (data_source_connection g)) None;
          Call (indexer_client_of g)
            (create_indexer
               (indexer (SearchIndexerDataSourceConnection.name d)
                        (SearchIndexerSkillset.name k)))
            None;
          Call (indexer_client_of g) (get_indexer "hotel-data-indexer") None;
          Call (indexer_client_of g) (run_indexer (SearchIndexer.name r))
            None]
         [Text "Skillset is created"; Text "Data source is created";
          Repr r]).
End Outcomes.

(** ** A stand-in for the remote service

    Used to run the script on concrete inputs: a registry that stores what
    is created, refuses a second resource of the same kind and name with a
    naming collision, and answers 404 for an indexer it does not hold. *)
Record registry := Registry {
  held_indexes : list SearchIndex.t;
  held_datasources : list SearchIndexerDataSourceConnection.t;
  held_skillsets : list SearchIndexerSkillset.t;
  held_indexers : list SearchIndexer.t;
  started_runs : list string }.

Definition empty_registry : registry := Registry [] [] [] [] [].

Definition named {A} (name_of : A -> string) (n : string) (l : list A) : bool :=
  existsb (fun x => String.eqb (name_of x) n) l.

Definition endpoint_of (c : client) : string :=
  match c with
  | SearchIndexClient endpoint _ | SearchIndexerClient endpoint _ => endpoint
  end.

(** The stand-in refuses a client for an endpoint that starts with
    "http://". *)
Definition refuses_plain_http (c : client) : option string :=
  if String.prefix "http://" (endpoint_of c)
  then Some "non-https endpoint"
  else None.

#[export] Instance registry_service : SearchService registry := {|
  client_refused := refuses_plain_http;
  remote_create_index _ i s :=
    if named SearchIndex.name (SearchIndex.name i) (held_indexes s)
    then (inl NamingCollision, s)
    else (inr i,
          Registry (held_indexes s ++ [i]) (held_datasources s)
            (held_skillsets s) (held_indexers s) (started_runs s));
  remote_create_data_source_connection _ d s :=
    if named SearchIndexerDataSourceConnection.name
         (SearchIndexerDataSourceConnection.name d) (held_datasources s)
    then (inl NamingCollision, s)
    else (inr d,
          Registry (held_indexes s) (held_datasources s ++ [d])
            (held_skillsets s) (held_indexers s) (started_runs s));
  remote_create_skillset _ k s :=
    if named SearchIndexerSkillset.name (SearchIndexerSkillset.name k)
         (held_skillsets s)
    then (inl NamingCollision, s)
    else (inr k,
          Registry (held_indexes s) (held_datasources s)
            (held_skillsets s ++ [k]) (held_indexers s) (started_runs s));
  remote_create_indexer _ i s :=
    if named SearchIndexer.name (SearchIndexer.name i) (held_indexers s)
    then (inl NamingCollision, s)
    else (inr i,
          Registry (held_indexes s) (held_datasources s)
            (held_skillsets s) (held_indexers s ++ [i]) (started_runs s));
  remote_get_indexer _ n s :=
    match List.find (fun x => String.eqb (SearchIndexer.name x) n)
            (held_indexers s) with
    | Some i => (inr i, s)
    | None => (inl (OtherFailure 404), s)
    end;
  remote_run_indexer _ n s :=
    if named SearchIndexer.name n (held_indexers s)
    then (inr tt,
          Registry (held_indexes s) (held_datasources s)
            (held_skillsets s) (held_indexers s) (started_runs s ++ [n]))
    else (inl (OtherFailure 404), s) |}.

(** An environment with the seven variables set. *)
Definition example_environ : gmap string string :=
  list_to_map [
    ("AZURE_SEARCH_SERVICE_ENDPOINT", "https://search.example.net");
    ("AZURE_SEARCH_API_KEY", "search-key");
    ("AZURE_STORAGE_CONNECTION_STRING", "UseDevelopmentStorage=true");
    ("AZURE_OPENAI_ENDPOINT", "https://openai.example.net");
    ("AZURE_OPENAI_EMBEDDING_DEPLOYMENT", "embedding-deployment");
    ("AZURE_OPENAI_EMBEDDING_MODEL", "text-embedding-3-small");
    ("AZURE_OPENAI_EMBEDDING_CREDENTIAL", "openai-key") ].

Definition example_globals : globals :=
  Globals "https://search.example.net" "search-key"
    "UseDevelopmentStorage=true" "https://openai.example.net"
    "embedding-deployment" "text-embedding-3-small" "openai-key".

(** A registry that already holds a datasource named as the script's. *)
Definition registry_with_datasource : registry :=
  Registry [] [data_source_connection example_globals] [] [] [].

(** An environment in which only the deployment variable has another
    value. *)
Definition example_environ_redeployed : gmap string string :=
  <["AZURE_OPENAI_EMBEDDING_DEPLOYMENT" := "another-deployment"]>
    example_environ.

(** An environment in which the embedding model variable is not set. *)
Definition example_environ_without_model : gmap string string :=
  delete "AZURE_OPENAI_EMBEDDING_MODEL" example_environ.

(** Calls of the example runs, as they are logged. *)
Definition example_client : client := indexer_client_of example_globals.
Definition example_create_skillset : client_call :=
  Call example_client (create_skillset (skillset example_globals)) None.
Definition example_create_datasource : client_call :=
  Call example_client
    (create_data_source_connection (data_source_connection example_globals))
    None.
Definition example_create_indexer : client_call :=
  Call example_client
    (create_indexer (indexer "openairagaudio" "testtskillset")) None.
Definition example_refused_datasource : client_call :=
  Call example_client
    (create_data_source_connection (data_source_connection example_globals))
    (Some NamingCollision).

(** The five field definitions listed in [_create_index]. *)
Definition listed_fields : list (pyseq field_definition) :=
  [ PyObj (SearchableField "chunk_id" (Some true) (Some "keyword") (Some true));
    PyObj (SimpleField "parent_id" String_ (Some true));
    PyObj (SearchableField "title" None None None);
    PyObj (SearchableField "chunk" None None None);
    PyObj (SearchField "text_vector" (Collection Single) (Some 1536%Z)
             (Some "vp") (Some true) (Some false)) ].

(** A request that names a destination index names "gptkbindex". *)
Definition targets_gptkbindex (r : request) : Prop :=
  match r with
  | create_indexer i => SearchIndexer.target_index_name i = "gptkbindex"
  | create_skillset k =>
      map SearchIndexerIndexProjectionSelector.target_index_name
        (SearchIndexerIndexProjections.selectors
           (SearchIndexerSkillset.index_projections k))
      = ["gptkbindex"]
  | _ => True
  end.

(** A run in which a remote call raised: the run ends with that error,
    the failed call is the last one of the log and appears nowhere before,
    every earlier call returned, and no delete request was sent. *)
Definition error_terminates {service}
    (out : (exception + unit) * world service) : Prop :=
  forall i c e,
    calls (snd out) !! i = Some c -> raised c = Some e ->
    fst out = inl (HttpResponseError e) /\
    (exists earlier,
        calls (snd out) = (earlier ++ [c])%list /\
        Forall (fun c' => raised c' = None) earlier /\
        Forall (fun c' => op c' <> op c) earlier) /\
    Forall (fun c' => is_delete (op c') = false) (calls (snd out)).

(** A second stand-in, without state: it builds every client and every
    call returns what was sent ([get_indexer] an indexer of the name asked
    for). *)
#[export] Instance accepting_service : SearchService unit := {|
  client_refused _ := None;
  remote_create_index _ i s := (inr i, s);
  remote_create_data_source_connection _ d s := (inr d, s);
  remote_create_skillset _ k s := (inr k, s);
  remote_create_indexer _ i s := (inr i, s);
  remote_get_indexer _ n s := (inr (SearchIndexer.mk n "" "" "" []), s);
  remote_run_indexer _ _ s := (inr tt, s) |}.

(** The example environment with a search endpoint that is not https. *)
Definition example_environ_plain_http : gmap string string :=
  <["AZURE_SEARCH_SERVICE_ENDPOINT" := "http://search.example.net"]>
    example_environ.

(** Each of the four creation calls is in the log exactly once. *)
Definition each_creation_once (log : list client_call) : Prop :=
  count_calls is_create_index log = 1 /\
  count_calls is_create_datasource log = 1 /\
  count_calls is_create_skillset log = 1 /\
  count_calls is_create_indexer log = 1.

(** Doing [create] a second time, in the world the first left, gives the
    result of the first and leaves the remote state as the first left
    it. *)
Definition reissue_changes_nothing {service A} (create : M service A)
    (w : world service) : Prop :=
  let once := create w in
  let twice := create (snd once) in
  fst twice = fst once /\ remote (snd twice) = remote (snd once).

(** The service, asked again in the state its answer left, gives the
    same answer and leaves that state as it is. *)
Definition answers_idempotently {service A}
    (answer : service -> (remote_error + A) * service) (s : service) : Prop :=
  answer (snd (answer s)) = (fst (answer s), snd (answer s)).

(** ** Vocabulary of the further properties *)

(** The six variables whose values the script goes on to use: the
    required ones without the deployment variable. *)
Definition used_variables : list string :=
  [ "AZURE_SEARCH_SERVICE_ENDPOINT"; "AZURE_SEARCH_API_KEY";
    "AZURE_STORAGE_CONNECTION_STRING"; "AZURE_OPENAI_ENDPOINT";
    "AZURE_OPENAI_EMBEDDING_MODEL"; "AZURE_OPENAI_EMBEDDING_CREDENTIAL" ].

(** What a client call did, as the log records it: the error it raised,
    if any, and the state it left. *)
Definition logged {service A} (x : (remote_error + A) * service)
  : option remote_error * service :=
  (match fst x with inl e => Some e | inr _ => None end, snd x).

(** The answer of the service to a logged request; the [delete_*]
    methods have none, the script having no use for them. *)
Definition answer_to {service} `{SearchService service}
    (c : client) (r : request) (s : service)
  : option (option remote_error * service) :=
  match r with
  | create_index i => Some (logged (remote_create_index c i s))
  | create_data_source_connection d =>
      Some (logged (remote_create_data_source_connection c d s))
  | create_skillset k => Some (logged (remote_create_skillset c k s))
  | create_indexer i => Some (logged (remote_create_indexer c i s))
  | get_indexer n => Some (logged (remote_get_indexer c n s))
  | run_indexer n => Some (logged (remote_run_indexer c n s))
  | _ => None
  end.

(** [replays log s s']: serving the calls of [log] one after the other
    from state [s] gives the outcomes the log records and ends in [s']. *)
Fixpoint replays {service} `{SearchService service}
    (log : list client_call) (s s' : service) : Prop :=
  match log with
  | [] => s' = s
  | c :: rest =>
      exists s1, answer_to (via c) (op c) s = Some (raised c, s1) /\
                 replays rest s1 s'
  end.

(** The first required variable, in the order the module reads them,
    that is not set. *)
Definition is_unset (environ : gmap string string) (name : string) : bool :=
  match environ !! name with None => true | Some _ => false end.
Definition first_unset (environ : gmap string string) : option string :=
  List.find (is_unset environ) required_variables.

(** Two more environments: one without the search key and without the
    embedding model, one with another deployment and a variable the
    script does not read. *)
Definition example_environ_two_unset : gmap string string :=
  delete "AZURE_SEARCH_API_KEY"
    (delete "AZURE_OPENAI_EMBEDDING_MODEL" example_environ).
Definition example_environ_with_extras : gmap string string :=
  <["PATH" := "/usr/bin"]>
    (<["AZURE_OPENAI_EMBEDDING_DEPLOYMENT" := "another-deployment"]>
       example_environ).

Definition example_run_indexer : client_call :=
  Call example_client (run_indexer "hotel-data-indexer") None.

(** * Properties *)

(** ** Running the script on the example inputs *)

Example module_init_example :
  module_init example_environ (start empty_registry)
  = (inr example_globals, start empty_registry).
Proof. vm_compute. reflexivity. Qed.

Example run_example_returns :
  fst (run example_environ empty_registry) = inr tt.
Proof. vm_compute. reflexivity. Qed.

Example run_example_ops :
  map op (calls (snd (run example_environ empty_registry)))
  = [ create_skillset (skillset example_globals);
      create_data_source_connection (data_source_connection example_globals);
      create_indexer (indexer "openairagaudio" "testtskillset");
      get_indexer "hotel-data-indexer";
      run_indexer "hotel-data-indexer" ].
Proof. vm_compute. reflexivity. Qed.

Example run_example_plain_http :
  run example_environ_plain_http empty_registry
  = (inl (ValueError "non-https endpoint"), start empty_registry).
Proof. vm_compute. reflexivity. Qed.

Example run_example_collision :
  fst (run example_environ registry_with_datasource)
  = inl (HttpResponseError NamingCollision).
Proof. vm_compute. reflexivity. Qed.

(** ** The module-level lookups *)

Lemma os_environ_set {service} (environ : gmap string string) name v
    (w : world service) :
  environ !! name = Some v -> os_environ environ name w = (inr v, w).
Proof. intros E. unfold os_environ. rewrite E. reflexivity. Qed.

Lemma os_environ_unset {service} (environ : gmap string string) name
    (w : world service) :
  environ !! name = None ->
  os_environ environ name w = (inl (KeyError name), w).
Proof. intros E. unfold os_environ. rewrite E. reflexivity. Qed.

Ltac lookup_step environ name :=
  let E := fresh "E" in
  destruct (environ !! name) as [?v|] eqn:E;
  [ | left; exists name; split; [set_solver | split; [exact E | reflexivity]] ].

(** Module initialisation either raises [KeyError] for a required variable
    that is not set, or binds the globals to the values of the seven
    variables; it touches nothing else. *)
Lemma module_init_cases {service} (environ : gmap string string)
    (w : world service) :
  (exists name, name ∈ required_variables /\ environ !! name = None /\
                module_init environ w = (inl (KeyError name), w)) \/
  (exists g, read_from environ g /\ module_init environ w = (inr g, w)).
Proof.
  unfold module_init, bind, os_environ, ret, raise.
  lookup_step environ "AZURE_SEARCH_SERVICE_ENDPOINT".
  lookup_step environ "AZURE_SEARCH_API_KEY".
  lookup_step environ "AZURE_STORAGE_CONNECTION_STRING".
  lookup_step environ "AZURE_OPENAI_ENDPOINT".
  lookup_step environ "AZURE_OPENAI_EMBEDDING_DEPLOYMENT".
  lookup_step environ "AZURE_OPENAI_EMBEDDING_MODEL".
  lookup_step environ "AZURE_OPENAI_EMBEDDING_CREDENTIAL".
  right. eexists. split; [| reflexivity].
  unfold read_from; simpl; tauto.
Qed.

(** ** The runs of the workflow *)

Section Runs.
Context {service : Type} `{SearchService service}.

(** Every run of the workflow from an empty log is one of the six
    outcomes. *)
Lemma workflow_cases (g : globals) (s : service) :
  workflow_outcome g s (sample_indexer_workflow g (start s)).
Proof.
  unfold sample_indexer_workflow, _create_skillset, _create_datasource,
    call_create_skillset, call_create_data_source_connection,
    call_create_indexer, call_get_indexer, call_run_indexer, start,
    new_client, bind, print, ret, raise, invoke.
  fold (indexer_client_of g). cbn [remote calls console app].
  destruct (client_refused (indexer_client_of g)) as [message|] eqn:E0;
    cbn [remote calls console app].
  { eapply client_raises; eassumption. }
  destruct (remote_create_skillset (indexer_client_of g) (skillset g) s)
    as [[e|k] s1] eqn:E1; cbn [remote calls console app].
  { eapply skillset_raises; eassumption. }
  destruct (remote_create_data_source_connection (indexer_client_of g)
              (data_source_connection g) s1)
    as [[e|d] s2] eqn:E2; cbn [remote calls console app].
  { eapply datasource_raises; eassumption. }
  destruct (remote_create_indexer (indexer_client_of g)
              (indexer (SearchIndexerDataSourceConnection.name d)
                       (SearchIndexerSkillset.name k)) s2)
    as [[e|i] s3] eqn:E3; cbn [remote calls console app].
  { eapply indexer_raises; eassumption. }
  destruct (remote_get_indexer (indexer_client_of g) "hotel-data-indexer" s3)
    as [[e|r] s4] eqn:E4; cbn [remote calls console app].
  { eapply get_raises; eassumption. }
  destruct (remote_run_indexer (indexer_client_of g) (SearchIndexer.name r) s4)
    as [[e|[]] s5] eqn:E5; cbn [remote calls console app].
  { eapply run_raises; eassumption. }
  eapply all_return; eassumption.
Qed.

(** The script is the module-level lookups followed by the workflow,
    with no handler around either. *)
Lemma run_cases (environ : gmap string string) (s : service) :
  (exists name, name ∈ required_variables /\ environ !! name = None /\
                run environ s = (inl (KeyError name), start s)) \/
  (exists g, read_from environ g /\
             run environ s = sample_indexer_workflow g (start s)).
Proof.
  unfold run, script, bind. fold (start s).
  destruct (module_init_cases environ (start s))
    as [(name & Hin & Hnone & ->) | (g & Hg & ->)]; [left | right]; eauto.
Qed.

End Runs.

(** ** Order of calls in a log *)

Lemma scan_returned_before_app P Q (log pre : list client_call) (seen : bool) :
  (seen = true ->
   exists j c', pre !! j = Some c' /\ P (op c') = true /\ raised c' = None) ->
  scan_returned_before P Q seen log = true ->
  forall i c, (pre ++ log)%list !! i = Some c -> length pre <= i ->
    Q (op c) = true ->
    exists j c', j < i /\ (pre ++ log)%list !! j = Some c' /\
                 P (op c') = true /\ raised c' = None.
Proof.
  revert pre seen.
  induction log as [|c0 rest IH]; intros pre seen Hseen Hscan i c Hi Hle HQ.
  - rewrite app_nil_r in Hi. apply lookup_lt_Some in Hi. lia.
  - simpl in Hscan. apply andb_true_iff in Hscan as [Hhere Hrest].
    destruct (decide (i = length pre)) as [-> | Hne].
    + rewrite list_lookup_middle in Hi by reflexivity.
      injection Hi as <-. rewrite HQ in Hhere. simpl in Hhere.
      destruct (Hseen Hhere) as (j & c' & Hj & HP & Hok).
      exists j, c'. split; [eapply lookup_lt_Some; eassumption |].
      split; [apply lookup_app_l_Some; assumption | auto].
    + rewrite cons_middle, app_assoc in Hi |- *.
      apply (IH (pre ++ [c0])%list
               (seen || (P (op c0) && bool_decide (raised c0 = None))))
        with (i := i) (c := c); auto.
      * intros Hs. apply orb_true_iff in Hs as [Hs | Hs].
        -- destruct (Hseen Hs) as (j & c' & Hj & HP & Hok).
           exists j, c'. split; [apply lookup_app_l_Some; assumption | auto].
        -- apply andb_true_iff in Hs as [HP Hok].
           apply bool_decide_eq_true in Hok.
           exists (length pre), c0.
           split; [apply list_lookup_middle; reflexivity | auto].
      * rewrite length_app. simpl. lia.
Qed.

(** The scan is sound for [returned_before]. *)
Lemma scan_returned_before_sound P Q (log : list client_call) :
  scan_returned_before P Q false log = true -> returned_before P Q log.
Proof.
  intros Hscan i c Hi HQ.
  apply (scan_returned_before_app P Q log [] false) with (c := c);
    [discriminate | assumption | assumption | simpl; lia | assumption].
Qed.

Lemma returned_before_issued P Q (log : list client_call) :
  returned_before P Q log -> issued_before P Q log.
Proof.
  intros Hr i c Hi HQ. destruct (Hr i c Hi HQ) as (j & c' & ? & ? & ? & _).
  eauto.
Qed.

(** ** The payloads *)

(** What the embedding skill of the skillset takes from the globals. *)
Lemma embedding_skill_of_globals (g : globals) :
  exists e,
    embedding_skills (skillset g) = [e] /\
    AzureOpenAIEmbeddingSkill.resource_uri e
      = AZURE_OPENAI_EMBEDDING_ENDPOINT g /\
    AzureOpenAIEmbeddingSkill.deployment_id e
      = AZURE_OPENAI_EMBEDDING_ENDPOINT g /\
    AzureOpenAIEmbeddingSkill.model_name e = AZURE_OPENAI_EMBEDDING_MODEL g /\
    AzureOpenAIEmbeddingSkill.api_key e = AZURE_OPENAI_EMBEDDING_CREDENTIAL g.
Proof. eexists. repeat split. Qed.

(** C1 (evaluation at the failing input).  With AZURE_OPENAI_ENDPOINT set
    to "https://openai.example.net" and AZURE_OPENAI_EMBEDDING_DEPLOYMENT
    set to "embedding-deployment", the first request of the run is the
    skillset creation, and the deployment id of its embedding skill is the
    endpoint URL, not the value of the deployment variable; resource URI,
    model name and API key are the values of their variables. *)
Lemma C1_deployment_id_is_the_endpoint :
  example_environ !! "AZURE_OPENAI_ENDPOINT"
    = Some "https://openai.example.net" /\
  example_environ !! "AZURE_OPENAI_EMBEDDING_DEPLOYMENT"
    = Some "embedding-deployment" /\
  exists k e,
    op <$> calls (snd (run example_environ empty_registry)) !! 0
      = Some (create_skillset k) /\
    embedding_skills k = [e] /\
    AzureOpenAIEmbeddingSkill.deployment_id e = "https://openai.example.net" /\
    AzureOpenAIEmbeddingSkill.deployment_id e <> "embedding-deployment" /\
    Some (AzureOpenAIEmbeddingSkill.resource_uri e)
      = example_environ !! "AZURE_OPENAI_ENDPOINT" /\
    Some (AzureOpenAIEmbeddingSkill.model_name e)
      = example_environ !! "AZURE_OPENAI_EMBEDDING_MODEL" /\
    Some (AzureOpenAIEmbeddingSkill.api_key e)
      = example_environ !! "AZURE_OPENAI_EMBEDDING_CREDENTIAL".
Proof.
  split; [vm_compute; reflexivity |].
  split; [vm_compute; reflexivity |].
  eexists _, _.
  split; [vm_compute; reflexivity |].
  split; [vm_compute; reflexivity |].
  split; [reflexivity |].
  split; [discriminate |].
  repeat split; vm_compute; reflexivity.
Qed.

Section Payloads.
Context {service : Type} `{SearchService service}.

(** C2.  [_create_skillset] sends one request, the creation of its
    skillset, unless the SDK refuses the client, in which case it raises
    before sending anything.  The skillset has exactly two skills:
    a split skill (mode "pages", page length 2000, overlap 500, input
    /document/content, output textItems targeted to "pages") and then an
    embedding skill over /document/pages/* whose output is targeted to
    "text_vector"; it has one projection selector, keyed to the parent by
    parent_id, mapping chunk, text_vector and title (from the storage
    name), and the projection mode skips indexing parent documents. *)
Theorem C2_skillset_shape (g : globals) (s : service) :
  match client_refused (indexer_client_of g) with
  | None =>
      op <$> calls (snd (_create_skillset g (start s)))
        = [create_skillset (skillset g)]
  | Some message =>
      _create_skillset g (start s) = (inl (ValueError message), start s)
  end /\
  exists e,
    SearchIndexerSkillset.skills (skillset g)
      = [ Split
            {| SplitSkill.text_split_mode := "pages";
               SplitSkill.context := "/document";
               SplitSkill.maximum_page_length := 2000;
               SplitSkill.page_overlap_length := 500;
               SplitSkill.inputs :=
                 [InputFieldMappingEntry.mk "text" "/document/content"];
               SplitSkill.outputs :=
                 [OutputFieldMappingEntry.mk "textItems" "pages"] |};
          Embedding e ] /\
    AzureOpenAIEmbeddingSkill.context e = "/document/pages/*" /\
    AzureOpenAIEmbeddingSkill.inputs e
      = [InputFieldMappingEntry.mk "text" "/document/pages/*"] /\
    AzureOpenAIEmbeddingSkill.outputs e
      = [OutputFieldMappingEntry.mk "embedding" "text_vector"] /\
    SearchIndexerSkillset.index_projections (skillset g)
      = {| SearchIndexerIndexProjections.selectors := [
             {| SearchIndexerIndexProjectionSelector.target_index_name :=
                  "gptkbindex";
                SearchIndexerIndexProjectionSelector.parent_key_field_name :=
                  "parent_id";
                SearchIndexerIndexProjectionSelector.source_context :=
                  "/document/pages/*";
                SearchIndexerIndexProjectionSelector.mappings := [
                  InputFieldMappingEntry.mk "chunk" "/document/pages/*";
                  InputFieldMappingEntry.mk "text_vector"
                    "/document/pages/*/text_vector";
                  InputFieldMappingEntry.mk "title"
                    "/document/metadata_storage_name" ] |} ];
           SearchIndexerIndexProjections.parameters :=
             SearchIndexerIndexProjectionsParameters.mk
               SKIP_INDEXING_PARENT_DOCUMENTS |}.
Proof.
  split.
  - unfold _create_skillset, call_create_skillset, new_client, bind, invoke,
      ret, raise, start.
    fold (indexer_client_of g).
    destruct (client_refused (indexer_client_of g)); [reflexivity |].
    cbn [remote calls console app].
    destruct (remote_create_skillset _ _ s) as [[e|k] s1]; reflexivity.
  - eexists. repeat split.
Qed.

(** C4 (evaluation).  [_create_index] calls [create_index] with its
    index, unless the SDK refuses the client.  The index is named
    "hotel-index" and allows all origins for 60 seconds, but the value
    of its fields is a one-element tuple holding the list of the five
    field definitions, not that list. *)
Lemma C4_fields_is_a_tuple (g : globals) (s : service) :
  match client_refused
          (SearchIndexClient (service_endpoint g)
             (AzureKeyCredential.mk (key g))) with
  | None =>
      op <$> calls (snd (_create_index g (start s))) = [create_index index]
  | Some message =>
      _create_index g (start s) = (inl (ValueError message), start s)
  end /\
  SearchIndex.name index = "hotel-index" /\
  SearchIndex.cors_options index = CorsOptions.mk ["*"] 60 /\
  SearchIndex.fields index = PyTuple [PyList listed_fields] /\
  SearchIndex.fields index <> PyList listed_fields.
Proof.
  split.
  - unfold _create_index, call_create_index, new_client, bind, invoke, ret,
      raise, start.
    destruct (client_refused _); [reflexivity |].
    cbn [remote calls console app].
    destruct (remote_create_index _ _ s) as [[e|k] s1]; reflexivity.
  - repeat split. discriminate.
Qed.

End Payloads.

(** ** Order, number and failure of the remote calls *)

Ltac by_scan := apply scan_returned_before_sound; reflexivity.

(** [Forall] over an explicit log, entry by entry. *)
Ltac each_call :=
  repeat (constructor; [cbn; first [reflexivity | discriminate | tauto] |]);
  constructor.

(** Split an explicit log into the calls before the last one and the last
    one. *)
Ltac split_last :=
  first [ exists []; split; [reflexivity |]
        | eexists [_]; split; [reflexivity |]
        | eexists [_; _]; split; [reflexivity |]
        | eexists [_; _; _]; split; [reflexivity |]
        | eexists [_; _; _; _]; split; [reflexivity |] ].

Section Calls.
Context {service : Type} `{SearchService service}.

(** C3.  In every run of the workflow, an indexer creation call comes
    only after a skillset creation call and a datasource creation call
    that both returned, and a run call only after an indexer creation
    call that returned (hence also after the other two). *)
Theorem C3_indexer_after_dependencies (g : globals) (s : service) :
  let log := calls (snd (sample_indexer_workflow g (start s))) in
  returned_before is_create_skillset is_create_indexer log /\
  returned_before is_create_datasource is_create_indexer log /\
  returned_before is_create_indexer is_run_indexer log /\
  returned_before is_create_skillset is_run_indexer log /\
  returned_before is_create_datasource is_run_indexer log.
Proof.
  destruct (workflow_cases g s); cbn [snd calls];
    repeat split; by_scan.
Qed.

Lemma invoke_again {A} (c : client) (r : request)
    (answer : service -> (remote_error + A) * service) (w : world service) :
  answers_idempotently answer (remote w) ->
  reissue_changes_nothing (invoke c r answer) w.
Proof.
  unfold answers_idempotently, reissue_changes_nothing, invoke.
  destruct (answer (remote w)) as [[e|a] s1] eqn:E; cbn [fst snd remote];
    intros ->; split; reflexivity.
Qed.

Lemma new_client_then_again {A} (c : client)
    (create : client -> M service A) (w : world service) :
  (client_refused c = None -> reissue_changes_nothing (create c) w) ->
  reissue_changes_nothing
    (let! built := new_client c in let! result := create built in ret result)
    w.
Proof.
  unfold reissue_changes_nothing, new_client, bind, ret, raise.
  destruct (client_refused c); [intros _; split; reflexivity |].
  intros Hagain. specialize (Hagain eq_refl).
  destruct (create c w) as [[e|a] w1] eqn:E1; cbn [fst snd] in *;
    destruct (create c w1) as [[e'|a'] w2] eqn:E2; cbn [fst snd] in *;
    destruct Hagain as [Hresult Hremote]; split; congruence.
Qed.

(** C5 (as amended).  A run of the script never issues the index
    creation call; it issues the datasource, the skillset and the indexer
    creation call at most once each, and exactly once each when the run
    ends without an exception.  Issuing one of these three creations a
    second time leaves the result and the remote state as the first did
    whenever the service answers that request idempotently in that
    state. *)
Theorem C5_creation_calls_counted (environ : gmap string string)
    (s : service) :
  let out := run environ s in
  count_calls is_create_index (calls (snd out)) = 0 /\
  count_calls is_create_datasource (calls (snd out)) <= 1 /\
  count_calls is_create_skillset (calls (snd out)) <= 1 /\
  count_calls is_create_indexer (calls (snd out)) <= 1 /\
  (fst out = inr tt ->
   count_calls is_create_datasource (calls (snd out)) = 1 /\
   count_calls is_create_skillset (calls (snd out)) = 1 /\
   count_calls is_create_indexer (calls (snd out)) = 1) /\
  (forall (g : globals) (w : world service),
      (answers_idempotently
         (remote_create_skillset (indexer_client_of g) (skillset g))
         (remote w) ->
       reissue_changes_nothing (_create_skillset g) w) /\
      (answers_idempotently
         (remote_create_data_source_connection (indexer_client_of g)
            (data_source_connection g))
         (remote w) ->
       reissue_changes_nothing (_create_datasource g) w) /\
      (forall ix,
          answers_idempotently
            (remote_create_indexer (indexer_client_of g) ix) (remote w) ->
          reissue_changes_nothing
            (call_create_indexer (indexer_client_of g) ix) w)).
Proof.
  assert (Hcounts :
    let out := run environ s in
    count_calls is_create_index (calls (snd out)) = 0 /\
    count_calls is_create_datasource (calls (snd out)) <= 1 /\
    count_calls is_create_skillset (calls (snd out)) <= 1 /\
    count_calls is_create_indexer (calls (snd out)) <= 1 /\
    (fst out = inr tt ->
     count_calls is_create_datasource (calls (snd out)) = 1 /\
     count_calls is_create_skillset (calls (snd out)) = 1 /\
     count_calls is_create_indexer (calls (snd out)) = 1)).
  { destruct (run_cases environ s) as [(name & _ & _ & ->) | (g & _ & ->)].
    - cbn. repeat split; try lia; congruence.
    - destruct (workflow_cases g s); cbn;
        repeat split; try lia; congruence. }
  destruct Hcounts as (H0 & H1 & H2 & H3 & H4).
  do 5 (split; [assumption |]).
  intros g w. split; [| split].
  - intros Hidem. apply new_client_then_again. intros _.
    apply invoke_again. exact Hidem.
  - intros Hidem. apply new_client_then_again. intros _.
    apply invoke_again. exact Hidem.
  - intros ix Hidem. apply invoke_again. exact Hidem.
Qed.

(** C6 (as amended).  In every run of the workflow the first call, if
    there is one, is the skillset creation, and there is one whenever the
    SDK does not refuse the client; a datasource creation call comes only
    after a skillset creation call that returned, and an indexer creation
    call only after a datasource creation call that returned. *)
Theorem C6_skillset_then_datasource_then_indexer (g : globals)
    (s : service) :
  let log := calls (snd (sample_indexer_workflow g (start s))) in
  (forall c, log !! 0 = Some c -> is_create_skillset (op c) = true) /\
  (client_refused (indexer_client_of g) = None ->
   exists c, log !! 0 = Some c /\ is_create_skillset (op c) = true) /\
  returned_before is_create_skillset is_create_datasource log /\
  returned_before is_create_datasource is_create_indexer log.
Proof.
  destruct (workflow_cases g s); cbn [snd calls];
    (split; [intros c [= <-]; reflexivity |]);
    (split; [intros Hnew; first [congruence | eexists; split; reflexivity]
            | split; by_scan]).
Qed.

Lemma workflow_error_terminates (g : globals) (s : service) :
  error_terminates (sample_indexer_workflow g (start s)).
Proof.
  destruct (workflow_cases g s); intros n c err Hn Hraised;
    cbn [fst snd calls] in *;
    do 5 (try destruct n as [|n]); cbn in Hn; try discriminate Hn;
    injection Hn as <-; cbn in Hraised; try discriminate Hraised;
    injection Hraised as <-;
    (split; [reflexivity | split; [split_last; split |]]); each_call.
Qed.

(** C7.  When a remote call raises, in the workflow and in the script
    that runs it: the run ends with that error, the failed call is the
    last entry of the log (nothing is sent after it, so it is not sent
    again), the same request was not sent before, every earlier call
    returned, and no delete request is in the log. *)
Theorem C7_remote_errors_end_the_run :
  (forall (g : globals) (s : service),
      error_terminates (sample_indexer_workflow g (start s))) /\
  (forall (environ : gmap string string) (s : service),
      error_terminates (run environ s)).
Proof.
  split; [apply workflow_error_terminates |].
  intros environ s.
  destruct (run_cases environ s) as [(name & _ & _ & ->) | (g & _ & ->)].
  - intros n c err Hn. cbn in Hn. discriminate.
  - apply workflow_error_terminates.
Qed.

(** C8.  If one of the seven required variables is not set, the script
    ends in a [KeyError] for a required variable that is not set, with
    no remote call issued and the remote service untouched. *)
Theorem C8_unset_variable_stops_before_any_call
    (environ : gmap string string) (s : service) (name : string) :
  name ∈ required_variables ->
  environ !! name = None ->
  exists missing,
    missing ∈ required_variables /\ environ !! missing = None /\
    fst (run environ s) = inl (KeyError missing) /\
    calls (snd (run environ s)) = [] /\
    remote (snd (run environ s)) = s.
Proof.
  intros Hin Hnone.
  destruct (run_cases environ s) as [(k & Hk & Hknone & ->) | (g & Hg & _)].
  - exists k. cbn. auto.
  - exfalso. destruct Hg as (H1 & H2 & H3 & H4 & H5 & H6 & H7).
    unfold required_variables in Hin.
    repeat (apply elem_of_cons in Hin as [-> | Hin]; [congruence |]).
    inversion Hin.
Qed.

(** C9.  The indexer the workflow builds targets "gptkbindex", the one
    projection selector of the skillset targets "gptkbindex", and these
    are the payloads of the calls of every run. *)
Theorem C9_same_target_index (g : globals) (s : service) :
  (forall ds_name skillset_name,
      SearchIndexer.target_index_name (indexer ds_name skillset_name)
      = "gptkbindex") /\
  map SearchIndexerIndexProjectionSelector.target_index_name
    (SearchIndexerIndexProjections.selectors
       (SearchIndexerSkillset.index_projections (skillset g)))
  = ["gptkbindex"] /\
  Forall (fun c => targets_gptkbindex (op c))
    (calls (snd (sample_indexer_workflow g (start s)))).
Proof.
  split; [reflexivity | split; [reflexivity |]].
  destruct (workflow_cases g s); cbn [snd calls];
    each_call.
Qed.

(** C10.  Two environments that differ only in the value of
    AZURE_OPENAI_EMBEDDING_DEPLOYMENT, set in both, give the same run:
    the same result, the same requests with the same payloads in the
    same order, the same console output and the same remote state. *)
Theorem C10_deployment_value_is_not_used
    (environ1 environ2 : gmap string string) (s : service) :
  delete "AZURE_OPENAI_EMBEDDING_DEPLOYMENT" environ1
    = delete "AZURE_OPENAI_EMBEDDING_DEPLOYMENT" environ2 ->
  is_Some (environ1 !! "AZURE_OPENAI_EMBEDDING_DEPLOYMENT") ->
  is_Some (environ2 !! "AZURE_OPENAI_EMBEDDING_DEPLOYMENT") ->
  run environ1 s = run environ2 s.
Proof.
  intros Hsame [d1 Hd1] [d2 Hd2].
  assert (Hother : forall name,
             name <> "AZURE_OPENAI_EMBEDDING_DEPLOYMENT" ->
             environ2 !! name = environ1 !! name).
  { intros name Hne.
    rewrite <- (lookup_delete_ne environ1
                  "AZURE_OPENAI_EMBEDDING_DEPLOYMENT" name) by congruence.
    rewrite <- (lookup_delete_ne environ2
                  "AZURE_OPENAI_EMBEDDING_DEPLOYMENT" name) by congruence.
    rewrite Hsame. reflexivity. }
  unfold run, script, module_init, bind, os_environ, ret, raise.
  rewrite Hd1, Hd2.
  rewrite !Hother by discriminate.
  repeat match goal with
         | |- context [environ1 !! ?name] => destruct (environ1 !! name)
         end; reflexivity.
Qed.

End Calls.

(** ** The claims that fail, at the example inputs *)

(** C5 (counterexample).  The claim fails in three ways.  The example
    run ends without an exception and has issued no index creation call.
    The run against a registry that already holds the datasource stops at
    the refused datasource creation, so that neither the index nor the
    indexer creation is issued once.  And against the registry a second
    skillset creation is refused where the first returned. *)
Lemma C5_not_as_stated :
  ~ each_creation_once (calls (snd (run example_environ empty_registry))) /\
  ~ (let log := calls (snd (run example_environ registry_with_datasource)) in
     count_calls is_create_datasource log = 1 /\
     count_calls is_create_skillset log = 1 /\
     count_calls is_create_indexer log = 1) /\
  ~ reissue_changes_nothing (_create_skillset example_globals)
      (start empty_registry).
Proof.
  split; [| split].
  - vm_compute. intros [Hindex _]. discriminate Hindex.
  - vm_compute. intros (_ & _ & Hindexer). discriminate Hindexer.
  - vm_compute. intros [Hresult _]. discriminate Hresult.
Qed.

(** C6 (counterexample).  In the example run the skillset creation is the
    first call, so no datasource creation comes before it. *)
Lemma C6_datasource_is_not_first :
  ~ (let log := calls (snd (run example_environ empty_registry)) in
     issued_before is_create_datasource is_create_skillset log /\
     issued_before is_create_skillset is_create_indexer log).
Proof.
  intros [Hds _].
  destruct (Hds 0 example_create_skillset)
    as (j & _ & Hj & _); [vm_compute; reflexivity | reflexivity | lia].
Qed.

(** ** The theorems at the example inputs *)

(** C3 at the example run: the indexer creation is the third call, and a
    skillset creation that returned is before it. *)
Lemma C3_example_run :
  let log :=
    calls (snd (sample_indexer_workflow example_globals (start empty_registry)))
  in
  log !! 2 = Some example_create_indexer /\
  is_create_indexer (op example_create_indexer) = true /\
  exists j c', j < 2 /\ log !! j = Some c' /\
               is_create_skillset (op c') = true /\ raised c' = None.
Proof.
  split; [vm_compute; reflexivity | split; [reflexivity |]].
  apply (proj1 (C3_indexer_after_dependencies example_globals empty_registry)
           2 example_create_indexer); vm_compute; reflexivity.
Defined.

(** C5 at the example run, which ends without an exception: datasource,
    skillset and indexer are created once each; and against the service
    that returns what it is sent, creating the skillset twice is as
    creating it once. *)
Lemma C5_example_run :
  let out := run example_environ empty_registry in
  (fst out = inr tt /\
   count_calls is_create_datasource (calls (snd out)) = 1 /\
   count_calls is_create_skillset (calls (snd out)) = 1 /\
   count_calls is_create_indexer (calls (snd out)) = 1) /\
  answers_idempotently
    (remote_create_skillset (indexer_client_of example_globals)
       (skillset example_globals)) tt /\
  reissue_changes_nothing (_create_skillset example_globals) (start tt).
Proof.
  split; [split; [vm_compute; reflexivity |] | split; [reflexivity |]].
  - apply (proj1 (proj2 (proj2 (proj2 (proj2
             (C5_creation_calls_counted example_environ empty_registry)))))).
    vm_compute; reflexivity.
  - apply (proj1 (proj2 (proj2 (proj2 (proj2 (proj2
             (C5_creation_calls_counted example_environ tt)))))
             example_globals (start tt))).
    reflexivity.
Defined.

(** C6 at the example run: the datasource creation is the second call,
    after the skillset creation. *)
Lemma C6_example_run :
  let log :=
    calls (snd (sample_indexer_workflow example_globals (start empty_registry)))
  in
  log !! 1 = Some example_create_datasource /\
  is_create_datasource (op example_create_datasource) = true /\
  exists j c', j < 1 /\ log !! j = Some c' /\
               is_create_skillset (op c') = true /\ raised c' = None.
Proof.
  split; [vm_compute; reflexivity | split; [reflexivity |]].
  apply (proj1 (proj2 (proj2 (C6_skillset_then_datasource_then_indexer
                                example_globals empty_registry)))
           1 example_create_datasource); vm_compute; reflexivity.
Defined.

(** C7 at a run against a registry that already holds the datasource:
    the datasource creation raises a naming collision, which ends the run;
    the skillset created before it stays. *)
Lemma C7_example_run :
  let out := run example_environ registry_with_datasource in
  calls (snd out) !! 1 = Some example_refused_datasource /\
  raised example_refused_datasource = Some NamingCollision /\
  fst out = inl (HttpResponseError NamingCollision) /\
  (exists earlier,
      calls (snd out) = (earlier ++ [example_refused_datasource])%list /\
      Forall (fun c' => raised c' = None) earlier /\
      Forall (fun c' => op c' <> op example_refused_datasource) earlier) /\
  Forall (fun c' => is_delete (op c') = false) (calls (snd out)).
Proof.
  split; [vm_compute; reflexivity | split; [reflexivity |]].
  apply (proj2 C7_remote_errors_end_the_run example_environ
           registry_with_datasource 1 example_refused_datasource
           NamingCollision); vm_compute; reflexivity.
Defined.

(** C8 at an environment without AZURE_OPENAI_EMBEDDING_MODEL. *)
Lemma C8_example_run :
  "AZURE_OPENAI_EMBEDDING_MODEL" ∈ required_variables /\
  example_environ_without_model !! "AZURE_OPENAI_EMBEDDING_MODEL" = None /\
  exists missing,
    missing ∈ required_variables /\
    example_environ_without_model !! missing = None /\
    fst (run example_environ_without_model empty_registry)
      = inl (KeyError missing) /\
    calls (snd (run example_environ_without_model empty_registry)) = [] /\
    remote (snd (run example_environ_without_model empty_registry))
      = empty_registry.
Proof.
  assert (Hin : "AZURE_OPENAI_EMBEDDING_MODEL" ∈ required_variables)
    by (apply (bool_decide_unpack _); vm_compute; exact I).
  assert (Hnone : example_environ_without_model
                    !! "AZURE_OPENAI_EMBEDDING_MODEL" = None)
    by (vm_compute; reflexivity).
  split; [exact Hin | split; [exact Hnone |]].
  exact (C8_unset_variable_stops_before_any_call
           example_environ_without_model empty_registry
           "AZURE_OPENAI_EMBEDDING_MODEL" Hin Hnone).
Defined.

(** C10 at two environments with different deployment values. *)
Lemma C10_example_run :
  delete "AZURE_OPENAI_EMBEDDING_DEPLOYMENT" example_environ
    = delete "AZURE_OPENAI_EMBEDDING_DEPLOYMENT" example_environ_redeployed /\
  example_environ !! "AZURE_OPENAI_EMBEDDING_DEPLOYMENT"
    = Some "embedding-deployment" /\
  example_environ_redeployed !! "AZURE_OPENAI_EMBEDDING_DEPLOYMENT"
    = Some "another-deployment" /\
  run example_environ empty_registry
    = run example_environ_redeployed empty_registry.
Proof.
  assert (Hsame : delete "AZURE_OPENAI_EMBEDDING_DEPLOYMENT" example_environ
                  = delete "AZURE_OPENAI_EMBEDDING_DEPLOYMENT"
                      example_environ_redeployed)
    by (vm_compute; reflexivity).
  assert (H1 : example_environ !! "AZURE_OPENAI_EMBEDDING_DEPLOYMENT"
               = Some "embedding-deployment") by (vm_compute; reflexivity).
  assert (H2 : example_environ_redeployed
                 !! "AZURE_OPENAI_EMBEDDING_DEPLOYMENT"
               = Some "another-deployment") by (vm_compute; reflexivity).
  split; [exact Hsame | split; [exact H1 | split; [exact H2 |]]].
  exact (C10_deployment_value_is_not_used example_environ
           example_environ_redeployed empty_registry Hsame
           (ex_intro _ _ H1) (ex_intro _ _ H2)).
Defined.

(** * Further properties of the script *)

#[local] Set Warnings "-clear-no-such-hyp".

(** ** The environment *)

Section Environment.
Context {service : Type} `{SearchService service}.

Lemma workflow_never_key_error (g : globals) (s : service) (name : string) :
  fst (sample_indexer_workflow g (start s)) <> inl (KeyError name).
Proof. destruct (workflow_cases g s); cbn; discriminate. Qed.

Lemma workflow_calls_first (g : globals) (s : service) :
  client_refused (indexer_client_of g) = None ->
  exists c rest,
    calls (snd (sample_indexer_workflow g (start s))) = c :: rest /\
    via c = indexer_client_of g /\ op c = create_skillset (skillset g).
Proof.
  intros Hnew.
  destruct (workflow_cases g s); cbn; [congruence | ..];
    eexists _, _; repeat split.
Qed.

Lemma workflow_refused (g : globals) (s : service) (message : string) :
  client_refused (indexer_client_of g) = Some message ->
  sample_indexer_workflow g (start s) = (inl (ValueError message), start s).
Proof.
  intros Hrefused.
  destruct (workflow_cases g s); try congruence.
  replace message0 with message by congruence. reflexivity.
Qed.

(** X2.
    The lookups fail at the first variable, in reading order, that is
    not set, with a [KeyError] naming it; with none unset the script runs
    the workflow on the globals read from the environment. *)
Theorem key_error_names_the_first_unset_variable
    (environ : gmap string string) (s : service) :
  match first_unset environ with
  | Some name => run environ s = (inl (KeyError name), start s)
  | None =>
      exists g, read_from environ g /\
                run environ s = sample_indexer_workflow g (start s)
  end.
Proof.
  unfold first_unset, required_variables, is_unset, run, script,
    module_init, bind, os_environ, ret, raise, read_from.
  cbn [List.find]. fold (start s).
  repeat match goal with
         | |- context [environ !! ?name] =>
             destruct (environ !! name) eqn:?; [| reflexivity]
         end.
  eexists (Globals _ _ _ _ _ _ _). cbn. repeat split.
Qed.

(** X3.
    The script contacts the service exactly when all seven variables are
    set and the SDK builds the client: its call log is empty if and only
    if a required variable is not set or the client for the endpoint and
    key read from the environment is refused. *)
Theorem no_call_iff_unset_or_refused
    (environ : gmap string string) (s : service) :
  calls (snd (run environ s)) = [] <->
  (exists name, name ∈ required_variables /\ environ !! name = None) \/
  (exists g message,
      read_from environ g /\
      client_refused (indexer_client_of g) = Some message).
Proof.
  destruct (run_cases environ s) as [(name & Hin & Hnone & ->) | (g & Hg & ->)].
  - split; [eauto | reflexivity].
  - destruct (client_refused (indexer_client_of g)) as [message|] eqn:Hnew.
    + rewrite (workflow_refused g s message Hnew).
      split; [eauto 6 | reflexivity].
    + split.
      * destruct (workflow_calls_first g s Hnew) as (c & rest & -> & _).
        discriminate.
      * intros [(name & Hin & Hnone) | (g' & message & Hg' & Hrefused)];
          exfalso.
        -- destruct Hg as (H1 & H2 & H3 & H4 & H5 & H6 & H7).
           unfold required_variables in Hin.
           repeat (apply elem_of_cons in Hin as [-> | Hin]; [congruence |]).
           inversion Hin.
        -- destruct Hg as (H1 & H2 & _), Hg' as (H1' & H2' & _).
           unfold indexer_client_of in *.
           rewrite H1 in H1'. rewrite H2 in H2'.
           injection H1' as Eendpoint. injection H2' as Ekey.
           rewrite <- Eendpoint, <- Ekey in Hrefused. congruence.
Qed.

(** X4.
    The run depends on the environment only through the six variables
    other than the deployment: two environments that agree on those six,
    with the deployment variable set in both, give the same run, whatever
    else they hold. *)
Theorem run_reads_six_variables
    (environ1 environ2 : gmap string string) (s : service) :
  Forall (fun name => environ1 !! name = environ2 !! name) used_variables ->
  is_Some (environ1 !! "AZURE_OPENAI_EMBEDDING_DEPLOYMENT") ->
  is_Some (environ2 !! "AZURE_OPENAI_EMBEDDING_DEPLOYMENT") ->
  run environ1 s = run environ2 s.
Proof.
  intros Hsame [d1 Hd1] [d2 Hd2].
  unfold used_variables in Hsame.
  repeat match type of Hsame with
         | Forall _ (_ :: _) =>
             let E := fresh "E" in
             apply Forall_cons in Hsame as [E Hsame]
         end.
  unfold run, script, module_init, bind, os_environ, ret, raise.
  rewrite Hd1, Hd2, <- E, <- E0, <- E1, <- E2, <- E3, <- E4.
  repeat match goal with
         | |- context [environ1 !! ?name] => destruct (environ1 !! name)
         end; reflexivity.
Qed.

End Environment.

(** ** What the calls of a run carry *)

(** Name the entry a lookup in an explicit log of at most five calls
    gives. *)
Ltac pick_call Hi i :=
  do 5 (try destruct i as [|i]); cbn in Hi; try discriminate Hi;
  injection Hi as <-.

Section Requests.
Context {service : Type} `{SearchService service}.

(** X5.
    Every call of a run goes through an indexer client built from the
    values of AZURE_SEARCH_SERVICE_ENDPOINT and AZURE_SEARCH_API_KEY; no
    run uses an index client. *)
Theorem every_call_uses_the_configured_client
    (environ : gmap string string) (s : service) :
  Forall (fun c =>
            exists endpoint key,
              environ !! "AZURE_SEARCH_SERVICE_ENDPOINT" = Some endpoint /\
              environ !! "AZURE_SEARCH_API_KEY" = Some key /\
              via c = SearchIndexerClient endpoint (AzureKeyCredential.mk key))
    (calls (snd (run environ s))).
Proof.
  destruct (run_cases environ s) as [(name & _ & _ & ->) | (g & Hg & ->)].
  - constructor.
  - destruct Hg as (Hendpoint & Hkey & _).
    destruct (workflow_cases g s); cbn [snd calls];
      repeat (constructor; [eexists _, _; repeat split; eassumption |]);
      constructor.
Qed.

(** X6.
    A datasource creation call of a run is its second call; it names the
    datasource "openairagaudio", of type "azureblob", over the container
    "documentation", with the value of AZURE_STORAGE_CONNECTION_STRING as
    connection string. *)
Theorem datasource_request_from_environment
    (environ : gmap string string) (s : service) (i : nat)
    (c : client_call) (d : SearchIndexerDataSourceConnection.t) :
  calls (snd (run environ s)) !! i = Some c ->
  op c = create_data_source_connection d ->
  i = 1 /\
  SearchIndexerDataSourceConnection.name d = "openairagaudio" /\
  SearchIndexerDataSourceConnection.type d = "azureblob" /\
  SearchIndexerDataSourceConnection.container d
    = SearchIndexerDataContainer.mk "documentation" /\
  environ !! "AZURE_STORAGE_CONNECTION_STRING"
    = Some (SearchIndexerDataSourceConnection.connection_string d).
Proof.
  destruct (run_cases environ s) as [(name & _ & _ & ->) | (g & Hg & ->)].
  - intros Hi. discriminate Hi.
  - destruct Hg as (_ & _ & Hconn & _).
    destruct (workflow_cases g s); intros Hi Hop; cbn [snd calls] in Hi;
      pick_call Hi i; cbn in Hop; try discriminate Hop;
      injection Hop as <-; repeat split; exact Hconn.
Qed.

(** X7.
    A skillset creation call of a run is its first call, and its one
    embedding skill has 1536 dimensions and takes its resource URI, model
    name and API key from AZURE_OPENAI_ENDPOINT,
    AZURE_OPENAI_EMBEDDING_MODEL and AZURE_OPENAI_EMBEDDING_CREDENTIAL. *)
Theorem embedding_skill_from_environment
    (environ : gmap string string) (s : service) (i : nat)
    (c : client_call) (k : SearchIndexerSkillset.t) :
  calls (snd (run environ s)) !! i = Some c ->
  op c = create_skillset k ->
  i = 0 /\
  exists e,
    embedding_skills k = [e] /\
    AzureOpenAIEmbeddingSkill.dimensions e = 1536%Z /\
    environ !! "AZURE_OPENAI_ENDPOINT"
      = Some (AzureOpenAIEmbeddingSkill.resource_uri e) /\
    environ !! "AZURE_OPENAI_EMBEDDING_MODEL"
      = Some (AzureOpenAIEmbeddingSkill.model_name e) /\
    environ !! "AZURE_OPENAI_EMBEDDING_CREDENTIAL"
      = Some (AzureOpenAIEmbeddingSkill.api_key e).
Proof.
  destruct (run_cases environ s) as [(name & _ & _ & ->) | (g & Hg & ->)].
  - intros Hi. discriminate Hi.
  - destruct Hg as (_ & _ & _ & Hendpoint & _ & Hmodel & Hcredential).
    destruct (workflow_cases g s); intros Hi Hop; cbn [snd calls] in Hi;
      pick_call Hi i; cbn in Hop; try discriminate Hop;
      injection Hop as <-;
      (split; [reflexivity | eexists; split; [reflexivity |]]);
      cbn; auto.
Qed.

(** X8.
    The indexer the workflow creates names the datasource and the
    skillset by the names of the descriptors the service returned (not by
    the names the script sent), the datasource having been created on the
    state the skillset creation left. *)
Theorem indexer_names_what_the_service_returned
    (g : globals) (s : service) (i : nat) (c : client_call)
    (ix : SearchIndexer.t) :
  calls (snd (sample_indexer_workflow g (start s))) !! i = Some c ->
  op c = create_indexer ix ->
  exists k s1 d s2,
    remote_create_skillset (indexer_client_of g) (skillset g) s
      = (inr k, s1) /\
    remote_create_data_source_connection (indexer_client_of g)
      (data_source_connection g) s1 = (inr d, s2) /\
    i = 2 /\
    ix = indexer (SearchIndexerDataSourceConnection.name d)
                 (SearchIndexerSkillset.name k).
Proof.
  destruct (workflow_cases g s); intros Hi Hop; cbn [snd calls] in Hi;
    pick_call Hi i; cbn in Hop; try discriminate Hop;
    injection Hop as <-; eauto 10.
Qed.

(** X9.
    The indexer the workflow runs is the one [get_indexer] returned for
    "hotel-data-indexer", asked as the fourth call on the state the first
    three calls left: it is run under the name of the returned
    descriptor. *)
Theorem run_names_what_get_indexer_returned
    (g : globals) (s : service) (i : nat) (c : client_call) (n : string) :
  let log := calls (snd (sample_indexer_workflow g (start s))) in
  log !! i = Some c ->
  op c = run_indexer n ->
  i = 4 /\
  log !! 3
    = Some (Call (indexer_client_of g) (get_indexer "hotel-data-indexer") None)
  /\
  exists s3 r s4,
    replays (take 3 log) s s3 /\
    remote_get_indexer (indexer_client_of g) "hotel-data-indexer" s3
      = (inr r, s4) /\
    n = SearchIndexer.name r.
Proof.
  destruct (workflow_cases g s)
    as [ | | | |
       | k s1 d s2 ix s3 r s4 e s5 E0 E1 E2 E3 E4 E5
       | k s1 d s2 ix s3 r s4 s5 E0 E1 E2 E3 E4 E5 ];
    intros log Hi Hop; subst log; cbn [snd calls] in Hi |- *;
    pick_call Hi i; cbn in Hop; try discriminate Hop;
    injection Hop as <-;
    (split; [reflexivity | split; [reflexivity |]]);
    exists s3, r, s4; (split; [| split; [exact E4 | reflexivity]]);
    cbn [take replays answer_to via op raised];
    (exists s1; split; [rewrite E1; reflexivity |]);
    (exists s2; split; [rewrite E2; reflexivity |]);
    (exists s3; split; [rewrite E3; reflexivity |]); reflexivity.
Qed.

End Requests.

(** ** How a run ends *)

Section Endings.
Context {service : Type} `{SearchService service}.

(** X10.
    A run issues at most five calls.  It ends without an exception
    exactly when it has issued five calls and none of them raised; it ends
    with the error of a client call exactly when the last call of its log
    raised that error. *)
Theorem run_ending_read_from_the_log
    (environ : gmap string string) (s : service) :
  let out := run environ s in
  length (calls (snd out)) <= 5 /\
  (fst out = inr tt <->
   length (calls (snd out)) = 5 /\
   Forall (fun c => raised c = None) (calls (snd out))) /\
  (forall e,
      fst out = inl (HttpResponseError e) <->
      exists c, last (calls (snd out)) = Some c /\ raised c = Some e).
Proof.
  destruct (run_cases environ s) as [(name & _ & _ & ->) | (g & _ & ->)].
  - cbn. split; [lia |]. split; [| intros e]; naive_solver.
  - destruct (workflow_cases g s); cbn;
      (split; [lia |]); (split; [| intros e']);
      rewrite ?Forall_cons; cbn;
      repeat match goal with E : _ = (_, _) |- _ => clear E end;
      naive_solver.
Qed.

(** X12.
    The console tells the truth, in order: "Skillset is created" is
    printed exactly when the first call returned, "Data source is created"
    exactly when the second call returned, and an indexer is printed only
    when the fourth call, [get_indexer] of "hotel-data-indexer", returned,
    and one then is; nothing else is printed. *)
Theorem console_reports_returned_calls
    (environ : gmap string string) (s : service) :
  let out := run environ s in
  (exists r,
      console (snd out) `prefix_of`
        [Text "Skillset is created"; Text "Data source is created"; Repr r]) /\
  (Text "Skillset is created" ∈ console (snd out) <->
   exists c, calls (snd out) !! 0 = Some c /\ raised c = None) /\
  (Text "Data source is created" ∈ console (snd out) <->
   exists c, calls (snd out) !! 1 = Some c /\ raised c = None) /\
  ((exists r, Repr r ∈ console (snd out)) <->
   exists c, calls (snd out) !! 3 = Some c /\ raised c = None /\
             op c = get_indexer "hotel-data-indexer").
Proof.
  destruct (run_cases environ s) as [(name & _ & _ & ->) | (g & _ & ->)].
  - cbn. split; [exists (indexer "" ""); apply prefix_nil |].
    set_unfold. naive_solver.
  - destruct (workflow_cases g s)
      as [ message E0
         | e s1 E0 E1 | k s1 e s2 E0 E1 E2 | k s1 d s2 e s3 E0 E1 E2 E3
         | k s1 d s2 i s3 e s4 E0 E1 E2 E3 E4
         | k s1 d s2 i s3 r s4 e s5 E0 E1 E2 E3 E4 E5
         | k s1 d s2 i s3 r s4 s5 E0 E1 E2 E3 E4 E5 ];
      cbn [fst snd calls console];
      (split;
       [ first [ exists r | exists (indexer "" "") ];
         first [ apply prefix_nil | eexists; cbn; reflexivity ] |]);
      clear; cbn; set_unfold; naive_solver.
Qed.

End Endings.

(** ** The further properties at the example inputs *)

(** With the search key and the embedding model both unset, the error
    names the search key, which is read first. *)
Example first_unset_of_two :
  run example_environ_two_unset empty_registry
  = (inl (KeyError "AZURE_SEARCH_API_KEY"), start empty_registry).
Proof. vm_compute. reflexivity. Qed.

(** X3 at an example.
    With all seven variables set and an http endpoint the call log is
    empty, and read back: a variable is unset or the client is refused. *)
Lemma no_call_iff_unset_or_refused_example :
  calls (snd (run example_environ_plain_http empty_registry)) = [] /\
  ((exists name,
       name ∈ required_variables /\
       example_environ_plain_http !! name = None) \/
   (exists g message,
       read_from example_environ_plain_http g /\
       client_refused (service := registry) (indexer_client_of g)
       = Some message)).
Proof.
  assert (Hcalls : calls (snd (run example_environ_plain_http empty_registry))
                   = []) by (vm_compute; reflexivity).
  split; [exact Hcalls |].
  exact (proj1 (no_call_iff_unset_or_refused example_environ_plain_http
                  empty_registry) Hcalls).
Defined.

(** X4 at an example.
    Another deployment and an extra PATH variable leave the run as it is. *)
Lemma run_reads_six_variables_example :
  Forall (fun name => example_environ !! name
                      = example_environ_with_extras !! name) used_variables /\
  example_environ !! "PATH" <> example_environ_with_extras !! "PATH" /\
  run example_environ empty_registry
  = run example_environ_with_extras empty_registry.
Proof.
  assert (Hsame : Forall (fun name => example_environ !! name
                                      = example_environ_with_extras !! name)
                    used_variables)
    by (unfold used_variables;
        repeat (constructor; [vm_compute; reflexivity |]); constructor).
  split; [exact Hsame | split; [vm_compute; discriminate |]].
  apply (run_reads_six_variables example_environ example_environ_with_extras
           empty_registry Hsame).
  - exists "embedding-deployment". vm_compute. reflexivity.
  - exists "another-deployment". vm_compute. reflexivity.
Defined.

(** X6 at an example.
    The second call of the example run carries the example connection
    string. *)
Lemma datasource_request_from_environment_example :
  calls (snd (run example_environ empty_registry)) !! 1
    = Some example_create_datasource /\
  example_environ !! "AZURE_STORAGE_CONNECTION_STRING"
    = Some (SearchIndexerDataSourceConnection.connection_string
              (data_source_connection example_globals)).
Proof.
  assert (Hcall : calls (snd (run example_environ empty_registry)) !! 1
                  = Some example_create_datasource)
    by (vm_compute; reflexivity).
  split; [exact Hcall |].
  exact (proj2 (proj2 (proj2 (proj2
           (datasource_request_from_environment example_environ
              empty_registry 1 example_create_datasource
              (data_source_connection example_globals) Hcall eq_refl))))).
Defined.

(** X7 at an example.
    The first call of the example run carries the example endpoint, model
    and credential. *)
Lemma embedding_skill_from_environment_example :
  calls (snd (run example_environ empty_registry)) !! 0
    = Some example_create_skillset /\
  exists e,
    embedding_skills (skillset example_globals) = [e] /\
    AzureOpenAIEmbeddingSkill.dimensions e = 1536%Z /\
    example_environ !! "AZURE_OPENAI_ENDPOINT"
      = Some (AzureOpenAIEmbeddingSkill.resource_uri e) /\
    example_environ !! "AZURE_OPENAI_EMBEDDING_MODEL"
      = Some (AzureOpenAIEmbeddingSkill.model_name e) /\
    example_environ !! "AZURE_OPENAI_EMBEDDING_CREDENTIAL"
      = Some (AzureOpenAIEmbeddingSkill.api_key e).
Proof.
  assert (Hcall : calls (snd (run example_environ empty_registry)) !! 0
                  = Some example_create_skillset)
    by (vm_compute; reflexivity).
  split; [exact Hcall |].
  exact (proj2 (embedding_skill_from_environment example_environ
                  empty_registry 0 example_create_skillset
                  (skillset example_globals) Hcall eq_refl)).
Defined.

(** X8 at an example.
    The third call of the example run names what the registry returned. *)
Lemma indexer_names_what_the_service_returned_example :
  exists k s1 d s2,
    remote_create_skillset example_client (skillset example_globals)
      empty_registry = (inr k, s1) /\
    remote_create_data_source_connection example_client
      (data_source_connection example_globals) s1 = (inr d, s2) /\
    2 = 2 /\
    indexer "openairagaudio" "testtskillset"
    = indexer (SearchIndexerDataSourceConnection.name d)
              (SearchIndexerSkillset.name k).
Proof.
  apply (indexer_names_what_the_service_returned example_globals
           empty_registry 2 example_create_indexer
           (indexer "openairagaudio" "testtskillset"));
    [vm_compute; reflexivity | reflexivity].
Defined.

(** X9 at an example.
    The fifth call of the example run runs the indexer the registry
    returned. *)
Lemma run_names_what_get_indexer_returned_example :
  let log :=
    calls (snd (sample_indexer_workflow example_globals (start empty_registry)))
  in
  log !! 4 = Some example_run_indexer /\
  exists s3 r s4,
    replays (take 3 log) empty_registry s3 /\
    remote_get_indexer example_client "hotel-data-indexer" s3 = (inr r, s4) /\
    "hotel-data-indexer" = SearchIndexer.name r.
Proof.
  assert (Hcall : calls (snd (sample_indexer_workflow example_globals
                                (start empty_registry))) !! 4
                  = Some example_run_indexer)
    by (vm_compute; reflexivity).
  split; [exact Hcall |].
  exact (proj2 (proj2 (run_names_what_get_indexer_returned example_globals
                         empty_registry 4 example_run_indexer
                         "hotel-data-indexer" Hcall eq_refl))).
Defined.

(** X10 at an example.
    The refused datasource creation is the last call, and its error is
    the result of the run. *)
Lemma run_ending_read_from_the_log_example :
  let out := run example_environ registry_with_datasource in
  last (calls (snd out)) = Some example_refused_datasource /\
  fst out = inl (HttpResponseError NamingCollision).
Proof.
  assert (Hlast : last (calls (snd (run example_environ
                                      registry_with_datasource)))
                  = Some example_refused_datasource)
    by (vm_compute; reflexivity).
  split; [exact Hlast |].
  apply (proj2 (proj2 (proj2 (run_ending_read_from_the_log example_environ
                                registry_with_datasource)) NamingCollision)).
  exists example_refused_datasource. split; [exact Hlast | reflexivity].
Defined.

(** X12 at an example.
    The skillset creation returned before the datasource was refused, and
    its message is on the console. *)
Lemma console_reports_returned_calls_example :
  let out := run example_environ registry_with_datasource in
  calls (snd out) !! 0 = Some example_create_skillset /\
  Text "Skillset is created" ∈ console (snd out).
Proof.
  assert (Hcall : calls (snd (run example_environ registry_with_datasource))
                    !! 0 = Some example_create_skillset)
    by (vm_compute; reflexivity).
  split; [exact Hcall |].
  apply (proj2 (proj1 (proj2 (console_reports_returned_calls example_environ
                                registry_with_datasource)))).
  exists example_create_skillset. split; [exact Hcall | reflexivity].
Defined.

